(** * The boxed-Short constructor bridge of ktnumpy

    A shallow embedding of [src/main/ktnumpy/jni/source/java_classes/Short.c]:
    the file-scope variable [newShortID] and the function
    [java_lang_Short_new].  The function talks to the Java virtual machine
    through the JNI function table; those calls are kept as the nodes of a
    call tree, so that a statement can speak both about what a call returns
    and about which requests it sends to the virtual machine. *)

From Stdlib Require Import ZArith Lia.
From stdpp Require Import base strings list gmap.

Local Open Scope Z_scope.

(** ** Types of jni.h

    [jobject], [jclass] and [jmethodID] are pointers, [JNIEnv *] is a pointer
    and [jshort] is a signed 16-bit integer: all are machine integers here,
    the null pointer being the zero word. *)

Abbreviation JNIEnv := Z (only parsing).
Abbreviation jobject := Z (only parsing).
Abbreviation jclass := Z (only parsing).
Abbreviation jmethodID := Z (only parsing).
Abbreviation jshort := Z (only parsing).

Definition NULL : Z := 0.

Definition jshort_min : Z := -32768.
Definition jshort_max : Z := 32767.

(** The value a [jshort] parameter holds when it is handed the integer [v]. *)
Definition to_jshort (v : Z) : Z := (v + 32768) mod 65536 - 32768.

(** ** Variables of static storage duration

    The process keeps its file-scope and global variables in a store indexed
    by symbol; a symbol the store has no cell for reads as zero, which is
    how C initialises static storage. *)

Abbreviation statics := (gmap string Z) (only parsing).

Definition load_static (x : string) (g : statics) : Z := default 0 (g !! x).

Definition store_static (x : string) (v : Z) (g : statics) : statics := <[x := v]> g.

(** [static jmethodID newShortID = 0;] *)
Definition newShortID : string := "newShortID".

Definition initial_statics : statics := {[ newShortID := 0 ]}.

(** ** Requests to the virtual machine

    The entries of the JNI function table that the binding layer's
    collaborator offers: class lookup, constructor resolution, object
    construction, the pending-exception channel and monitors. *)

Inductive jni_call : Type :=
| FindClass (env : JNIEnv) (name : string)
| GetMethodID (env : JNIEnv) (clazz : jclass) (name sig : string)
| NewObject (env : JNIEnv) (clazz : jclass) (methodID : jmethodID) (args : list Z)
| ExceptionCheck (env : JNIEnv)
| ExceptionClear (env : JNIEnv)
| MonitorEnter (env : JNIEnv) (obj : jobject).

(** A native routine: it returns, or it sends a request and goes on with the
    word the virtual machine answers. *)
Inductive prog (A : Type) : Type :=
| Ret (a : A)
| Call (c : jni_call) (k : Z -> prog A).

Arguments Ret {A} a.
Arguments Call {A} c k.

Fixpoint bind {A B : Type} (p : prog A) (f : A -> prog B) : prog B :=
  match p with
  | Ret a => f a
  | Call c k => Call c (fun r => bind (k r) f)
  end.

Definition call (c : jni_call) : prog Z := Call c Ret.

#[global] Instance prog_ret : MRet prog := @Ret.
#[global] Instance prog_bind : MBind prog := fun A B f p => bind p f.

(** ** The routine *)

Section Bridge.

(** [SHORT_TYPE] is declared in [ktnumpy_includes.h], which is not among the
    sources at hand: the class reference of [java.lang.Short] that the
    binding layer holds, a parameter here. *)
Variable SHORT_TYPE : jclass.

(** Modelled from the spec: the macro [JNI_METHOD] of [ktnumpy_includes.h],
    which is not part of the sources at hand.  It "lazily resolve[s] and
    cache[s] the target type's constructor identifier ... if not already
    cached"; "the cached identifier, once non-empty, is never re-resolved".
    [ID] is the variable the macro reads and assigns; the value of the
    macro is whether [ID] holds an identifier afterwards. *)
Definition JNI_METHOD (ID : string) (env : JNIEnv) (type : jclass)
    (name sig : string) (g : statics) : prog (bool * statics) :=
  if bool_decide (load_static ID g = NULL) then
    m ← call (GetMethodID env type name sig);
    Ret (negb (bool_decide (m = NULL)), store_static ID m g)
  else Ret (true, g).

(** [jobject java_lang_Short_new (JNIEnv *env, jshort s)] *)
Definition java_lang_Short_new (env : JNIEnv) (s : jshort) (g : statics)
    : prog (jobject * statics) :=
  '(found, g1) ← JNI_METHOD newShortID env SHORT_TYPE "<init>" "(S)V" g;
  if negb found then Ret (NULL, g1)
  else
    o ← call (NewObject env SHORT_TYPE (load_static newShortID g1) [s]);
    Ret (o, g1).

(** A process that invokes the routine once per element of [calls], in
    order, each time with the environment handle and the value given. *)
Fixpoint java_lang_Short_new_each (calls : list (JNIEnv * jshort)) (g : statics)
    : prog (list jobject * statics) :=
  match calls with
  | [] => Ret ([], g)
  | (env, v) :: calls' =>
      '(o, g1) ← java_lang_Short_new env v g;
      '(os, g2) ← java_lang_Short_new_each calls' g1;
      Ret (o :: os, g2)
  end.

End Bridge.

(** ** Running a routine against a virtual machine *)

(** What the routine is given through [env]: a virtual machine that answers
    each request with a word and moves to a new state.  [shortValue] is the
    observation a test makes on a returned reference: the value
    [Short.shortValue()] yields, when the reference denotes a live boxed
    short. *)
Class Runtime (J : Type) : Type := {
  jni : jni_call -> J -> Z * J;
  shortValue : J -> jobject -> option Z
}.

(** One entry of the log of an execution: the request and its answer. *)
Abbreviation trace := (list (jni_call * Z)) (only parsing).

Fixpoint run {J : Type} `{!Runtime J} {A : Type} (p : prog A) (j : J)
    : A * J * trace :=
  match p with
  | Ret a => (a, j, [])
  | Call c k =>
      let '(r, j1) := jni c j in
      let '(a, j2, tr) := run (k r) j1 in
      (a, j2, (c, r) :: tr)
  end.

(** The four components of an execution of the routine. *)
Definition returned {A G J T : Type} (x : A * G * J * T) : A := x.1.1.1.
Definition statics_after {A G J T : Type} (x : A * G * J * T) : G := x.1.1.2.
Definition jvm_after {A G J T : Type} (x : A * G * J * T) : J := x.1.2.
Definition requests {A G J T : Type} (x : A * G * J * T) : T := x.2.

(** The state a virtual machine reaches by serving the requests of a log. *)
Definition replay {J : Type} `{!Runtime J} (tr : trace) (j : J) : J :=
  foldl (fun j1 e => (jni e.1 j1).2) j tr.

(** Whether the pending-exception indicator is raised, as the caller would
    find out with [ExceptionCheck]. *)
Definition exception_pending {J : Type} `{!Runtime J} (env : JNIEnv) (j : J) : bool :=
  negb (bool_decide ((jni (ExceptionCheck env) j).1 = 0)).

(** Classification of log entries. *)
Definition is_lookup (e : jni_call * Z) : bool :=
  match e.1 with
  | FindClass _ _ | GetMethodID _ _ _ _ => true
  | _ => false
  end.

Definition is_resolution (e : jni_call * Z) : bool :=
  match e.1 with
  | GetMethodID _ _ _ _ => negb (bool_decide (e.2 = NULL))
  | _ => false
  end.

Definition is_allocation (e : jni_call * Z) : bool :=
  match e.1 with
  | NewObject _ _ _ _ => true
  | _ => false
  end.

Definition is_exception_clear (e : jni_call * Z) : bool :=
  match e.1 with
  | ExceptionClear _ => true
  | _ => false
  end.

Definition is_blocking (e : jni_call * Z) : bool :=
  match e.1 with
  | MonitorEnter _ _ => true
  | _ => false
  end.

(** Whether a log entry, when it is a construction, names constructor [m]. *)
Definition uses_cached (m : jmethodID) (e : jni_call * Z) : bool :=
  match e.1 with
  | NewObject _ _ m' _ => bool_decide (m' = m)
  | _ => true
  end.

(** The part of a log that follows its first successful resolution. *)
Fixpoint after_resolution (tr : trace) : trace :=
  match tr with
  | [] => []
  | e :: tr' => if is_resolution e then tr' else after_resolution tr'
  end.

(** A routine that returns after at most [n] requests, whatever the virtual
    machine answers. *)
Inductive returns_within {A : Type} : nat -> prog A -> Prop :=
| rw_ret n a : returns_within n (Ret a)
| rw_call n c k :
    (forall r, returns_within n (k r)) -> returns_within (S n) (Call c k).

(** ** A small virtual machine

    Enough of a Java virtual machine to run the routine: a class table, a
    method table, a heap of boxed shorts with an optional capacity, and the
    pending-exception indicator.  The reference [r] denotes heap cell
    [r - 1], so that no reference is [NULL]. *)

Module Toy.

Record jvm : Type := {
  classes : list (string * Z);
  methods : list (Z * string * string * Z);
  heap : list Z;
  capacity : option nat;
  pending : option string
}.

Definition throw (x : string) (j : jvm) : jvm :=
  {| classes := classes j; methods := methods j; heap := heap j;
     capacity := capacity j; pending := Some x |}.

Definition clear (j : jvm) : jvm :=
  {| classes := classes j; methods := methods j; heap := heap j;
     capacity := capacity j; pending := None |}.

Definition alloc (v : Z) (j : jvm) : jvm :=
  {| classes := classes j; methods := methods j; heap := heap j ++ [v];
     capacity := capacity j; pending := pending j |}.

Fixpoint class_named (name : string) (cs : list (string * Z)) : Z :=
  match cs with
  | [] => NULL
  | (n, c) :: cs' => if bool_decide (n = name) then c else class_named name cs'
  end.

Fixpoint method_of (clazz : Z) (name sig : string)
    (ms : list (Z * string * string * Z)) : Z :=
  match ms with
  | [] => NULL
  | (c, n, s, m) :: ms' =>
      if bool_decide (c = clazz) && bool_decide (n = name) && bool_decide (s = sig)
      then m else method_of clazz name sig ms'
  end.

Definition has_room (j : jvm) : bool :=
  match capacity j with
  | None => true
  | Some n => bool_decide (length (heap j) < n)%nat
  end.

Definition step (c : jni_call) (j : jvm) : Z * jvm :=
  match c with
  | FindClass _ name =>
      let k := class_named name (classes j) in
      if bool_decide (k = NULL) then (NULL, throw "java/lang/NoClassDefFoundError" j)
      else (k, j)
  | GetMethodID _ clazz name sig =>
      let m := method_of clazz name sig (methods j) in
      if bool_decide (m = NULL) then (NULL, throw "java/lang/NoSuchMethodError" j)
      else (m, j)
  | NewObject _ clazz methodID args =>
      match args with
      | [v] =>
          if bool_decide (methodID = NULL)
             || negb (bool_decide (method_of clazz "<init>" "(S)V" (methods j) = methodID))
          then (NULL, throw "java/lang/InstantiationException" j)
          else if has_room j
          then (Z.of_nat (length (heap j)) + 1, alloc (to_jshort v) j)
          else (NULL, throw "java/lang/OutOfMemoryError" j)
      | _ => (NULL, throw "java/lang/InstantiationException" j)
      end
  | ExceptionCheck _ => (match pending j with Some _ => 1 | None => 0 end, j)
  | ExceptionClear _ => (0, clear j)
  | MonitorEnter _ _ => (0, j)
  end.

Definition unbox (j : jvm) (r : Z) : option Z :=
  if bool_decide (0 < r) then heap j !! Z.to_nat (r - 1) else None.

#[global] Instance runtime : Runtime jvm := {| jni := step; shortValue := unbox |}.

(** A machine that knows [java.lang.Short] (class reference 100) and its
    constructor from [short] (method identifier 7). *)
Definition booted : jvm :=
  {| classes := [("java/lang/Short", 100)];
     methods := [(100, "<init>", "(S)V", 7)];
     heap := []; capacity := None; pending := None |}.

(** A machine whose class path lacks the boxed type. *)
Definition misconfigured : jvm :=
  {| classes := []; methods := []; heap := []; capacity := None; pending := None |}.

(** A machine that knows the boxed type and has no room left on its heap. *)
Definition exhausted : jvm :=
  {| classes := [("java/lang/Short", 100)];
     methods := [(100, "<init>", "(S)V", 7)];
     heap := []; capacity := Some 0%nat; pending := None |}.

(** The states in which constructor [ctor] of class [clazz] is resolvable
    and the heap is unbounded. *)
Definition configured (clazz ctor : Z) (j : jvm) : Prop :=
  method_of clazz "<init>" "(S)V" (methods j) = ctor /\ capacity j = None.

End Toy.

(** ** What a correctly configured environment promises *)

Section Configuration.

Context {J : Type} `{!Runtime J}.
Variable SHORT_TYPE : jclass.

(** The virtual machine behind [env] is correctly configured for boxed
    shorts on the states [ok]: the constructor of [SHORT_TYPE] with
    signature [(S)V] resolves to the non-null identifier [ctor], and
    constructing with it yields a non-null reference that unboxes to the
    argument; both requests keep the machine in [ok] and keep the boxed
    shorts it already holds. *)
Record well_configured (env : JNIEnv) (ok : J -> Prop) (ctor : jmethodID) : Prop := {
  ctor_not_null : ctor <> NULL;
  resolve_ctor : forall j, ok j ->
    (jni (GetMethodID env SHORT_TYPE "<init>" "(S)V") j).1 = ctor
    /\ ok (jni (GetMethodID env SHORT_TYPE "<init>" "(S)V") j).2
    /\ (forall r v, shortValue j r = Some v ->
          shortValue (jni (GetMethodID env SHORT_TYPE "<init>" "(S)V") j).2 r = Some v);
  construct_short : forall j v, ok j -> jshort_min <= v <= jshort_max ->
    (jni (NewObject env SHORT_TYPE ctor [v]) j).1 <> NULL
    /\ ok (jni (NewObject env SHORT_TYPE ctor [v]) j).2
    /\ shortValue (jni (NewObject env SHORT_TYPE ctor [v]) j).2
          (jni (NewObject env SHORT_TYPE ctor [v]) j).1 = Some v
    /\ (forall r w, shortValue j r = Some w ->
          shortValue (jni (NewObject env SHORT_TYPE ctor [v]) j).2 r = Some w)
}.

(** The cache holds nothing, or the identifier the machine resolves. *)
Definition cache_ok (ctor : jmethodID) (g : statics) : Prop :=
  load_static newShortID g = NULL \/ load_static newShortID g = ctor.

End Configuration.

(** ** What the routine may ask for

    Whether [c] is one of the two requests that the body of
    [java_lang_Short_new] spells out for the handle [env] and the value [s]:
    the lookup of the constructor [(S)V] of [SHORT_TYPE], or a construction
    of [SHORT_TYPE] from the single argument [s] with a constructor
    identifier that is not [NULL]. *)
Definition expected_request (SHORT_TYPE : jclass) (env : JNIEnv) (s : jshort)
    (c : jni_call) : bool :=
  match c with
  | GetMethodID env' clazz name sig =>
      bool_decide (env' = env) && bool_decide (clazz = SHORT_TYPE)
      && bool_decide (name = "<init>") && bool_decide (sig = "(S)V")
  | NewObject env' clazz methodID args =>
      bool_decide (env' = env) && bool_decide (clazz = SHORT_TYPE)
      && negb (bool_decide (methodID = NULL)) && bool_decide (args = [s])
  | _ => false
  end.

(** * Properties *)

(** ** Executions in general *)

Section Executions.

Context {J : Type} `{!Runtime J}.

Lemma run_bind {A B : Type} (p : prog A) (f : A -> prog B) (j : J) :
  run (p ≫= f) j =
    let '(a, j1, t1) := run p j in
    let '(b, j2, t2) := run (f a) j1 in
    (b, j2, t1 ++ t2).
Proof.
  revert j. induction p as [a | c k IH]; intros j.
  - simpl. destruct (run (f a) j) as [[b j2] t2]. reflexivity.
  - change (Call c k ≫= f) with (Call c (fun r => k r ≫= f)).
    simpl. destruct (jni c j) as [r j1]. rewrite IH.
    destruct (run (k r) j1) as [[a j2] t1].
    destruct (run (f a) j2) as [[b j3] t2]. reflexivity.
Qed.

(** The virtual machine ends in the state its log leads to: a routine
    acts on the machine through its requests only. *)
Lemma run_replay {A : Type} (p : prog A) (j : J) :
  (run p j).1.2 = replay (run p j).2 j.
Proof.
  revert j. induction p as [a | c k IH]; intros j; simpl; [reflexivity |].
  destruct (jni c j) as [r j1] eqn:E. specialize (IH r j1).
  destruct (run (k r) j1) as [[a j2] tr]. simpl in *.
  unfold replay at 1. simpl. rewrite E. exact IH.
Qed.

End Executions.

(** ** The store of statics *)

Lemma load_store_eq (x : string) (v : Z) (g : gmap string Z) :
  load_static x (store_static x v g) = v.
Proof. unfold load_static, store_static. by rewrite lookup_insert_eq. Qed.

Lemma lookup_store_ne (x y : string) (v : Z) (g : gmap string Z) :
  x <> y -> store_static x v g !! y = g !! y.
Proof. intros Hne. unfold store_static. by rewrite lookup_insert_ne. Qed.

(** ** One call of the routine *)

Section One_call.

Context {J : Type} `{!Runtime J}.
Variable SHORT_TYPE : jclass.

Local Abbreviation resolve env := (GetMethodID env SHORT_TYPE "<init>" "(S)V").
Local Abbreviation construct env m s := (NewObject env SHORT_TYPE m [s]).

(** The execution of one call, spelled out: with an empty cache the routine
    asks for the constructor and, when it gets one, stores it and asks for
    the object; with a filled cache it asks for the object at once. *)
Lemma run_java_lang_Short_new (env : JNIEnv) (s : jshort) (g : gmap string Z) (j : J) :
  run (java_lang_Short_new SHORT_TYPE env s g) j =
    if bool_decide (load_static newShortID g = NULL) then
      let m := (jni (resolve env) j).1 in
      let j1 := (jni (resolve env) j).2 in
      if bool_decide (m = NULL) then
        ((NULL, store_static newShortID m g), j1, [(resolve env, m)])
      else
        (((jni (construct env m s) j1).1, store_static newShortID m g),
         (jni (construct env m s) j1).2,
         [(resolve env, m); (construct env m s, (jni (construct env m s) j1).1)])
    else
      let m := load_static newShortID g in
      (((jni (construct env m s) j).1, g),
       (jni (construct env m s) j).2,
       [(construct env m s, (jni (construct env m s) j).1)]).
Proof.
  unfold java_lang_Short_new, JNI_METHOD.
  case_bool_decide as Hcache.
  - cbn. destruct (jni (resolve env) j) as [m j1]. cbn.
    case_bool_decide as Hm; cbn.
    + reflexivity.
    + rewrite load_store_eq. destruct (jni (construct env m s) j1) as [o j2].
      reflexivity.
  - cbn. destruct (jni (construct env (load_static newShortID g) s) j) as [o j2].
    reflexivity.
Qed.

(** On a correctly configured machine a call boxes its argument, and
    leaves machine and cache as it needs them for the next call. *)
Lemma call_on_configured (env : JNIEnv) (ok : J -> Prop) (ctor : jmethodID)
    (v : jshort) (g : gmap string Z) (j : J) :
  well_configured SHORT_TYPE env ok ctor ->
  cache_ok ctor g -> ok j ->
  jshort_min <= v <= jshort_max ->
  let out := run (java_lang_Short_new SHORT_TYPE env v g) j in
  returned out <> NULL
  /\ shortValue (jvm_after out) (returned out) = Some v
  /\ ok (jvm_after out)
  /\ cache_ok ctor (statics_after out)
  /\ (forall r w, shortValue j r = Some w -> shortValue (jvm_after out) r = Some w).
Proof.
  intros [Hctor Hres Hnew] Hcache Hok Hv. cbv zeta.
  rewrite run_java_lang_Short_new.
  case_bool_decide as Hempty; cbv zeta.
  - destruct (Hres j Hok) as (Hm & Hok1 & Hkeep1). rewrite Hm.
    rewrite bool_decide_eq_false_2 by exact Hctor.
    destruct (Hnew _ v Hok1 Hv) as (Hnn & Hok2 & Hval & Hkeep2).
    unfold returned, jvm_after, statics_after; cbn.
    repeat split; try assumption.
    + right. apply load_store_eq.
    + intros r w Hr. apply Hkeep2, Hkeep1, Hr.
  - destruct Hcache as [Hc | Hc]; [contradiction |]. rewrite Hc.
    destruct (Hnew j v Hok Hv) as (Hnn & Hok2 & Hval & Hkeep2).
    unfold returned, jvm_after, statics_after; cbn.
    repeat split; try assumption. right. exact Hc.
Qed.

(** C1. For every representable 16-bit signed integer [v], a call of
    [java_lang_Short_new] on a correctly configured environment returns a
    reference that is not [NULL] and whose unboxed value is [v]. *)
Theorem java_lang_Short_new_boxes (env : JNIEnv) (ok : J -> Prop) (ctor : jmethodID)
    (v : jshort) (g : gmap string Z) (j : J) :
  well_configured SHORT_TYPE env ok ctor ->
  cache_ok ctor g -> ok j ->
  jshort_min <= v <= jshort_max ->
  returned (run (java_lang_Short_new SHORT_TYPE env v g) j) <> NULL
  /\ shortValue (jvm_after (run (java_lang_Short_new SHORT_TYPE env v g) j))
       (returned (run (java_lang_Short_new SHORT_TYPE env v g) j)) = Some v.
Proof.
  intros Hwc Hcache Hok Hv.
  destruct (call_on_configured env ok ctor v g j Hwc Hcache Hok Hv) as (Hnn & Hval & _).
  split; assumption.
Qed.

(** C2. When the cache is empty and the constructor does not resolve, the
    call returns [NULL] at once: the resolution request is the only request
    it sends, so nothing is allocated, and the machine is left as the
    failed resolution left it. *)
Theorem resolution_failure_returns_NULL (env : JNIEnv) (s : jshort)
    (g : gmap string Z) (j : J) :
  load_static newShortID g = NULL ->
  (jni (resolve env) j).1 = NULL ->
  returned (run (java_lang_Short_new SHORT_TYPE env s g) j) = NULL
  /\ requests (run (java_lang_Short_new SHORT_TYPE env s g) j) = [(resolve env, NULL)]
  /\ List.filter is_allocation (requests (run (java_lang_Short_new SHORT_TYPE env s g) j)) = []
  /\ jvm_after (run (java_lang_Short_new SHORT_TYPE env s g) j) = (jni (resolve env) j).2.
Proof.
  intros Hcache Hfail. rewrite run_java_lang_Short_new.
  rewrite bool_decide_eq_true_2 by exact Hcache. cbv zeta.
  rewrite bool_decide_eq_true_2 by exact Hfail. rewrite Hfail.
  repeat split.
Qed.

(** The case analysis of one call. *)
Ltac one_call :=
  rewrite run_java_lang_Short_new; cbv zeta;
  repeat case_bool_decide;
  unfold returned, statics_after, jvm_after, requests; cbn [fst snd].

(** C4. A call that returns [NULL] ends with the request that failed: the
    machine is handed back in the very state that request left, so the
    exception indicator is as the machine set it, and the call never asks
    the machine to clear it. *)
Theorem failure_leaves_exception_state (env : JNIEnv) (s : jshort)
    (g : gmap string Z) (j : J) :
  returned (run (java_lang_Short_new SHORT_TYPE env s g) j) = NULL ->
  exists c tr0,
    requests (run (java_lang_Short_new SHORT_TYPE env s g) j) = tr0 ++ [(c, NULL)]
    /\ jni c (replay tr0 j)
       = (NULL, jvm_after (run (java_lang_Short_new SHORT_TYPE env s g) j))
    /\ List.filter is_exception_clear
         (requests (run (java_lang_Short_new SHORT_TYPE env s g) j)) = []
    /\ exception_pending env (jvm_after (run (java_lang_Short_new SHORT_TYPE env s g) j))
       = exception_pending env (jni c (replay tr0 j)).2.
Proof.
  one_call.
  - intros _. exists (resolve env), []. cbn.
    destruct (jni (resolve env) j) as [m j1] eqn:E; cbn in *. subst m.
    repeat split.
  - intros Ho. exists (construct env (jni (resolve env) j).1 s), [(resolve env, (jni (resolve env) j).1)].
    unfold replay; cbn.
    destruct (jni (construct env (jni (resolve env) j).1 s) (jni (resolve env) j).2)
      as [o j2] eqn:E; cbn in *. subst o. repeat split.
  - intros Ho. exists (construct env (load_static newShortID g) s), [].
    unfold replay; cbn.
    destruct (jni (construct env (load_static newShortID g) s) j) as [o j2] eqn:E;
      cbn in *. subst o. repeat split.
Qed.

(** C6. A call has two outcomes only.  Either the constructor did not
    resolve, and the call returns [NULL] after that single request; or the
    call ends with the construction request and returns what the machine
    answered to it, whatever that is. *)
Theorem resolution_failure_only_failure (env : JNIEnv) (s : jshort)
    (g : gmap string Z) (j : J) :
  (load_static newShortID g = NULL
   /\ (jni (resolve env) j).1 = NULL
   /\ returned (run (java_lang_Short_new SHORT_TYPE env s g) j) = NULL
   /\ requests (run (java_lang_Short_new SHORT_TYPE env s g) j) = [(resolve env, NULL)])
  \/ (exists tr0 m,
        m <> NULL
        /\ List.filter is_allocation tr0 = []
        /\ requests (run (java_lang_Short_new SHORT_TYPE env s g) j)
           = tr0 ++ [(construct env m s,
                      returned (run (java_lang_Short_new SHORT_TYPE env s g) j))]
        /\ jni (construct env m s) (replay tr0 j)
           = (returned (run (java_lang_Short_new SHORT_TYPE env s g) j),
              jvm_after (run (java_lang_Short_new SHORT_TYPE env s g) j))).
Proof.
  one_call.
  - left. match goal with H : (jni _ j).1 = NULL |- _ => rewrite H end. repeat split; assumption.
  - right. exists [(resolve env, (jni (resolve env) j).1)], (jni (resolve env) j).1.
    unfold replay; cbn.
    destruct (jni (construct env (jni (resolve env) j).1 s) (jni (resolve env) j).2)
      as [o j2]. repeat split; assumption.
  - right. exists [], (load_static newShortID g). unfold replay; cbn.
    destruct (jni (construct env (load_static newShortID g) s) j) as [o j2].
    repeat split; assumption.
Qed.

(** C7. The cache changes only when a resolution succeeds, and then it
    takes the identifier the machine answered.  When the cache is empty
    and the resolution fails, the cache is empty afterwards, and the next
    call, whoever makes it, starts by asking for the constructor again. *)
Theorem cache_set_only_by_successful_resolution (env : JNIEnv) (s : jshort)
    (g : gmap string Z) (j : J) :
  let out := run (java_lang_Short_new SHORT_TYPE env s g) j in
  (load_static newShortID (statics_after out) = load_static newShortID g
   \/ (load_static newShortID g = NULL
       /\ load_static newShortID (statics_after out) <> NULL
       /\ (jni (resolve env) j).1 = load_static newShortID (statics_after out)))
  /\ (load_static newShortID g = NULL ->
      (jni (resolve env) j).1 = NULL ->
      load_static newShortID (statics_after out) = NULL
      /\ forall (env' : JNIEnv) (s' : jshort) (j' : J),
           exists m tr,
             requests (run (java_lang_Short_new SHORT_TYPE env' s' (statics_after out)) j')
             = (resolve env', m) :: tr).
Proof.
  cbv zeta. split.
  - one_call; rewrite ?load_store_eq; auto.
    left. congruence.
  - intros Hcache Hfail. rewrite run_java_lang_Short_new. cbv zeta.
    rewrite !bool_decide_eq_true_2 by assumption.
    unfold statics_after; cbn [fst snd]. rewrite load_store_eq. split; [exact Hfail |].
    intros env' s' j'. rewrite run_java_lang_Short_new.
    rewrite load_store_eq. rewrite (bool_decide_eq_true_2 _ Hfail). cbv zeta.
    case_bool_decide; unfold requests; cbn [snd]; eauto.
Qed.

(** C8. A call returns after at most two requests, whatever the machine
    answers: run against any machine it yields a result, its log has at
    most two entries, and none of them waits for a monitor. *)
Theorem java_lang_Short_new_returns (env : JNIEnv) (s : jshort) (g : gmap string Z) :
  returns_within 2 (java_lang_Short_new SHORT_TYPE env s g)
  /\ forall j : J,
      (exists o g' j' tr,
          run (java_lang_Short_new SHORT_TYPE env s g) j = (o, g', j', tr))
      /\ (length (requests (run (java_lang_Short_new SHORT_TYPE env s g) j)) <= 2)%nat
      /\ List.filter is_blocking (requests (run (java_lang_Short_new SHORT_TYPE env s g) j)) = [].
Proof.
  split.
  - unfold java_lang_Short_new, JNI_METHOD.
    case_bool_decide; cbn.
    + constructor. intros m. case_bool_decide; cbn; repeat constructor.
    + repeat constructor.
  - intros j. split.
    + destruct (run (java_lang_Short_new SHORT_TYPE env s g) j) as [[[o g'] j'] tr]. eauto.
    + one_call; cbn; split; (lia || reflexivity).
Qed.

(** C9. Of the variables of static storage, a call writes [newShortID]
    only: every other symbol reads after the call as it did before.  What
    [newShortID] holds afterwards is what it held before or an answer of
    the machine to the resolution request; the handle [env] is not kept. *)
Theorem only_newShortID_written (env : JNIEnv) (s : jshort) (g : gmap string Z) (j : J) :
  let out := run (java_lang_Short_new SHORT_TYPE env s g) j in
  (forall x : string, x <> newShortID -> statics_after out !! x = g !! x)
  /\ (load_static newShortID (statics_after out) = load_static newShortID g
      \/ In (resolve env, load_static newShortID (statics_after out)) (requests out)).
Proof.
  cbv zeta. split.
  - intros x Hx. one_call; try reflexivity; apply lookup_store_ne; congruence.
  - one_call; rewrite ?load_store_eq; auto; right; left; reflexivity.
Qed.

(** When the constructor identifier is at hand, be it cached or just
    resolved, the call hands back the answer to the construction request
    as it is. *)
Lemma construction_answer_returned (env : JNIEnv) (s : jshort)
    (g : gmap string Z) (j j1 : J) (m : jmethodID) :
  (if bool_decide (load_static newShortID g = NULL) then jni (resolve env) j
   else (load_static newShortID g, j)) = (m, j1) ->
  m <> NULL ->
  returned (run (java_lang_Short_new SHORT_TYPE env s g) j) = (jni (construct env m s) j1).1
  /\ jvm_after (run (java_lang_Short_new SHORT_TYPE env s g) j) = (jni (construct env m s) j1).2.
Proof.
  intros Hres Hm. rewrite run_java_lang_Short_new. cbv zeta.
  case_bool_decide as Hcache.
  - rewrite Hres. cbn [fst snd]. rewrite (bool_decide_eq_false_2 _ Hm). split; reflexivity.
  - inversion Hres; subst. split; reflexivity.
Qed.

End One_call.

(** ** Several calls *)

Section Several_calls.

Context {J : Type} `{!Runtime J}.
Variable SHORT_TYPE : jclass.

Local Abbreviation resolve env := (GetMethodID env SHORT_TYPE "<init>" "(S)V").
Local Abbreviation construct env m s := (NewObject env SHORT_TYPE m [s]).

(** C5. Two calls with the same environment handle and different values,
    one after the other on a correctly configured machine, return two
    different references, neither of them [NULL]; after the second call
    the first reference unboxes to the first value and the second to the
    second. *)
Theorem two_calls_two_references (env : JNIEnv) (ok : J -> Prop) (ctor : jmethodID)
    (v1 v2 : jshort) (g : gmap string Z) (j : J) :
  well_configured SHORT_TYPE env ok ctor ->
  cache_ok ctor g -> ok j ->
  jshort_min <= v1 <= jshort_max ->
  jshort_min <= v2 <= jshort_max ->
  v1 <> v2 ->
  let out1 := run (java_lang_Short_new SHORT_TYPE env v1 g) j in
  let out2 := run (java_lang_Short_new SHORT_TYPE env v2 (statics_after out1))
                  (jvm_after out1) in
  returned out1 <> returned out2
  /\ returned out1 <> NULL
  /\ returned out2 <> NULL
  /\ shortValue (jvm_after out2) (returned out1) = Some v1
  /\ shortValue (jvm_after out2) (returned out2) = Some v2.
Proof.
  intros Hwc Hcache Hok Hv1 Hv2 Hne out1 out2.
  destruct (call_on_configured SHORT_TYPE env ok ctor v1 g j Hwc Hcache Hok Hv1)
    as (Hnn1 & Hval1 & Hok1 & Hcache1 & _).
  fold out1 in Hnn1, Hval1, Hok1, Hcache1.
  destruct (call_on_configured SHORT_TYPE env ok ctor v2 _ _ Hwc Hcache1 Hok1 Hv2)
    as (Hnn2 & Hval2 & _ & _ & Hkeep).
  fold out2 in Hnn2, Hval2, Hkeep.
  pose proof (Hkeep _ _ Hval1) as Hval1'.
  repeat split; try assumption.
  intros Halias. rewrite Halias in Hval1'. congruence.
Qed.

Lemma run_each_cons (env : JNIEnv) (v : jshort) (calls : list (Z * Z))
    (g : gmap string Z) (j : J) :
  run (java_lang_Short_new_each SHORT_TYPE ((env, v) :: calls) g) j =
    let out1 := run (java_lang_Short_new SHORT_TYPE env v g) j in
    let outs := run (java_lang_Short_new_each SHORT_TYPE calls (statics_after out1))
                    (jvm_after out1) in
    ((returned out1 :: returned outs, statics_after outs), jvm_after outs,
     requests out1 ++ requests outs).
Proof.
  cbn [java_lang_Short_new_each]. rewrite run_bind.
  destruct (run (java_lang_Short_new SHORT_TYPE env v g) j) as [[[o g1] j1] t1].
  rewrite run_bind. cbv zeta. unfold returned, statics_after, jvm_after, requests. cbn [fst snd].
  destruct (run (java_lang_Short_new_each SHORT_TYPE calls g1) j1) as [[[os g2] j2] t2].
  cbn. by rewrite app_nil_r.
Qed.

(** With a filled cache no call looks anything up, every construction
    names the cached constructor, and the cache stays as it is. *)
Lemma filled_cache_no_lookup (calls : list (Z * Z)) (g : gmap string Z) (j : J) :
  load_static newShortID g <> NULL ->
  let out := run (java_lang_Short_new_each SHORT_TYPE calls g) j in
  List.filter is_lookup (requests out) = []
  /\ forallb (uses_cached (load_static newShortID g)) (requests out) = true
  /\ load_static newShortID (statics_after out) = load_static newShortID g.
Proof.
  intros Hfilled. cbv zeta. revert g j Hfilled.
  induction calls as [| [env v] calls IH]; intros g j Hfilled.
  - repeat split.
  - rewrite run_each_cons. cbv zeta.
    rewrite (run_java_lang_Short_new SHORT_TYPE env v g j).
    rewrite (bool_decide_eq_false_2 _ Hfilled). cbv zeta.
    unfold returned, statics_after, jvm_after, requests. cbn [fst snd].
    destruct (IH g (jni (construct env (load_static newShortID g) v) j).2 Hfilled)
      as (Hl & Hu & Hc).
    unfold statics_after, requests in Hl, Hu, Hc.
    cbn [app List.filter forallb].
    unfold is_lookup at 1, uses_cached at 1. cbn [fst snd].
    rewrite (bool_decide_eq_true_2 _ eq_refl). cbn [andb].
    repeat split; assumption.
Qed.

Lemma no_lookup_no_resolution (tr : list (jni_call * Z)) :
  List.filter is_lookup tr = [] ->
  List.filter is_resolution tr = [] /\ after_resolution tr = [].
Proof.
  induction tr as [| [c r] tr IH]; [done |].
  cbn [List.filter after_resolution].
  unfold is_lookup at 1, is_resolution at 1 2.
  destruct c; cbn [fst snd]; try discriminate; exact IH.
Qed.

(** From any cache, once a resolution has succeeded nothing is looked up
    again, so that at most one resolution succeeds. *)
Lemma resolved_once (calls : list (Z * Z)) (g : gmap string Z) (j : J) :
  let tr := requests (run (java_lang_Short_new_each SHORT_TYPE calls g) j) in
  List.filter is_lookup (after_resolution tr) = []
  /\ (length (List.filter is_resolution tr) <= 1)%nat.
Proof.
  cbv zeta. revert g j.
  induction calls as [| [env v] calls IH]; intros g j.
  - cbn. split; [reflexivity | lia].
  - destruct (decide (load_static newShortID g = NULL)) as [Hempty | Hfilled].
    + rewrite run_each_cons. cbv zeta.
      rewrite (run_java_lang_Short_new SHORT_TYPE env v g j).
      rewrite (bool_decide_eq_true_2 _ Hempty). cbv zeta.
      case_bool_decide as Hm;
        unfold returned, statics_after, jvm_after, requests; cbn [fst snd app].
      * cbn [after_resolution List.filter is_resolution fst snd].
        rewrite (bool_decide_eq_true_2 _ Hm). cbn [negb]. apply IH.
      * cbn [after_resolution List.filter is_resolution fst snd].
        rewrite (bool_decide_eq_false_2 _ Hm).
        cbn [negb List.filter length is_lookup fst snd].
        match goal with
        | |- context [run (java_lang_Short_new_each _ _ ?g1) ?j1] =>
            destruct (filled_cache_no_lookup calls g1 j1) as (Hl & _ & _);
            [rewrite load_store_eq; exact Hm |]
        end.
        unfold requests in Hl. rewrite Hl.
        destruct (no_lookup_no_resolution _ Hl) as [Hr _]. rewrite Hr.
        split; [reflexivity | cbn; lia].
    + destruct (filled_cache_no_lookup ((env, v) :: calls) g j Hfilled) as (Hl & _ & _).
      destruct (no_lookup_no_resolution _ Hl) as [Hr Ha].
      rewrite Hr, Ha. split; [reflexivity | cbn; lia].
Qed.

(** C3. Over any sequence of calls, whatever handles and values they are
    given: when the cache holds an identifier at the start, no call looks
    up a class or a constructor, every construction names the cached
    identifier and the cache keeps it; and from any cache, nothing is
    looked up after the first successful resolution, so that at most one
    resolution succeeds. *)
Theorem resolution_at_most_once (calls : list (Z * Z)) (g : gmap string Z) (j : J) :
  let out := run (java_lang_Short_new_each SHORT_TYPE calls g) j in
  (load_static newShortID g <> NULL ->
     List.filter is_lookup (requests out) = []
     /\ forallb (uses_cached (load_static newShortID g)) (requests out) = true
     /\ load_static newShortID (statics_after out) = load_static newShortID g)
  /\ List.filter is_lookup (after_resolution (requests out)) = []
  /\ (length (List.filter is_resolution (requests out)) <= 1)%nat.
Proof.
  cbv zeta. split.
  - intros Hfilled. exact (filled_cache_no_lookup calls g j Hfilled).
  - exact (resolved_once calls g j).
Qed.

End Several_calls.

(** ** The small virtual machine is a correctly configured one *)

Lemma to_jshort_representable (v : Z) :
  jshort_min <= v <= jshort_max -> to_jshort v = v.
Proof.
  unfold jshort_min, jshort_max, to_jshort. intros Hv.
  rewrite Z.mod_small by lia. lia.
Qed.

Lemma unbox_alloc_old (j : Toy.jvm) (v r w : Z) :
  Toy.unbox j r = Some w -> Toy.unbox (Toy.alloc v j) r = Some w.
Proof.
  unfold Toy.unbox. case_bool_decide; [| discriminate].
  cbn. apply lookup_app_l_Some.
Qed.

Lemma unbox_alloc_new (j : Toy.jvm) (v : Z) :
  Toy.unbox (Toy.alloc v j) (Z.of_nat (length (Toy.heap j)) + 1) = Some v.
Proof.
  unfold Toy.unbox. rewrite bool_decide_eq_true_2 by lia. cbn.
  replace (Z.to_nat (Z.of_nat (length (Toy.heap j)) + 1 - 1)) with (length (Toy.heap j)) by lia.
  apply list_lookup_middle. reflexivity.
Qed.

Lemma configured_well_configured (clazz ctor env : Z) :
  ctor <> NULL -> well_configured clazz env (Toy.configured clazz ctor) ctor.
Proof.
  intros Hctor. split; [exact Hctor | |].
  - intros j [Hm Hcap]. cbn. rewrite Hm.
    rewrite (bool_decide_eq_false_2 _ Hctor). cbn. repeat split; auto.
  - intros j v [Hm Hcap] Hv. cbn. rewrite Hm.
    rewrite (bool_decide_eq_false_2 _ Hctor), (bool_decide_eq_true_2 _ eq_refl).
    unfold Toy.has_room. rewrite Hcap. cbn.
    rewrite (to_jshort_representable v Hv).
    split; [unfold NULL; lia |]. split; [split; assumption |].
    split; [apply unbox_alloc_new |]. intros r w. apply unbox_alloc_old.
Qed.

(** C10. When the constructor identifier is at hand, cached or just resolved,
    the call returns the answer of the machine to the construction request
    as it is, and leaves the machine as that request left it.  The answer
    can be [NULL]: on a machine that resolves the constructor and has no
    room on its heap, the call resolves, requests the object and returns
    [NULL]. *)
Theorem construction_result_returned_unchecked :
  (forall (J : Type) (R : Runtime J) (SHORT_TYPE env s : Z) (g : gmap string Z)
          (j j1 : J) (m : Z),
      (if bool_decide (load_static newShortID g = NULL)
       then jni (GetMethodID env SHORT_TYPE "<init>" "(S)V") j
       else (load_static newShortID g, j)) = (m, j1) ->
      m <> NULL ->
      returned (run (java_lang_Short_new SHORT_TYPE env s g) j)
      = (jni (NewObject env SHORT_TYPE m [s]) j1).1
      /\ jvm_after (run (java_lang_Short_new SHORT_TYPE env s g) j)
         = (jni (NewObject env SHORT_TYPE m [s]) j1).2)
  /\ requests (run (java_lang_Short_new 100 1 5 initial_statics) Toy.exhausted)
     = [(GetMethodID 1 100 "<init>" "(S)V", 7); (NewObject 1 100 7 [5], NULL)]
  /\ returned (run (java_lang_Short_new 100 1 5 initial_statics) Toy.exhausted) = NULL.
Proof.
  split.
  - intros J R SHORT_TYPE env s g j j1 m. apply construction_answer_returned.
  - split; vm_compute; reflexivity.
Qed.

(** ** The statements at concrete inputs *)

Lemma java_lang_Short_new_boxes_witness :
  returned (run (java_lang_Short_new 100 1 (-1) initial_statics) Toy.booted) <> NULL
  /\ shortValue (jvm_after (run (java_lang_Short_new 100 1 (-1) initial_statics) Toy.booted))
       (returned (run (java_lang_Short_new 100 1 (-1) initial_statics) Toy.booted))
     = Some (-1).
Proof.
  apply (java_lang_Short_new_boxes 100 1 (Toy.configured 100 7) 7 (-1)
           initial_statics Toy.booted).
  - apply configured_well_configured. discriminate.
  - left. reflexivity.
  - split; reflexivity.
  - unfold jshort_min, jshort_max. lia.
Defined.

Lemma resolution_failure_returns_NULL_witness :
  load_static newShortID initial_statics = NULL
  /\ (jni (GetMethodID 1 100 "<init>" "(S)V") Toy.misconfigured).1 = NULL
  /\ returned (run (java_lang_Short_new 100 1 5 initial_statics) Toy.misconfigured) = NULL
  /\ Toy.heap (jvm_after (run (java_lang_Short_new 100 1 5 initial_statics) Toy.misconfigured))
     = [].
Proof.
  assert (Hc : load_static newShortID initial_statics = NULL) by reflexivity.
  assert (Hf : (jni (GetMethodID 1 100 "<init>" "(S)V") Toy.misconfigured).1 = NULL)
    by reflexivity.
  destruct (resolution_failure_returns_NULL 100 1 5 initial_statics Toy.misconfigured Hc Hf)
    as (Hr & _ & _ & Hj).
  split; [exact Hc |]. split; [exact Hf |]. split; [exact Hr |].
  rewrite Hj. reflexivity.
Defined.

Lemma failure_leaves_exception_state_witness :
  returned (run (java_lang_Short_new 100 1 5 initial_statics) Toy.misconfigured) = NULL
  /\ exists c tr0,
      requests (run (java_lang_Short_new 100 1 5 initial_statics) Toy.misconfigured)
      = tr0 ++ [(c, NULL)]
      /\ jni c (replay tr0 Toy.misconfigured)
         = (NULL, jvm_after (run (java_lang_Short_new 100 1 5 initial_statics) Toy.misconfigured))
      /\ List.filter is_exception_clear
           (requests (run (java_lang_Short_new 100 1 5 initial_statics) Toy.misconfigured)) = []
      /\ exception_pending 1
           (jvm_after (run (java_lang_Short_new 100 1 5 initial_statics) Toy.misconfigured))
         = exception_pending 1 (jni c (replay tr0 Toy.misconfigured)).2.
Proof.
  split; [reflexivity |].
  apply (failure_leaves_exception_state 100 1 5 initial_statics Toy.misconfigured).
  reflexivity.
Defined.

Lemma two_calls_two_references_witness :
  let out1 := run (java_lang_Short_new 100 1 0 initial_statics) Toy.booted in
  let out2 := run (java_lang_Short_new 100 1 (-1) (statics_after out1)) (jvm_after out1) in
  returned out1 <> returned out2
  /\ returned out1 <> NULL
  /\ returned out2 <> NULL
  /\ shortValue (jvm_after out2) (returned out1) = Some 0
  /\ shortValue (jvm_after out2) (returned out2) = Some (-1).
Proof.
  apply (two_calls_two_references 100 1 (Toy.configured 100 7) 7 0 (-1)
           initial_statics Toy.booted).
  - apply configured_well_configured. discriminate.
  - left. reflexivity.
  - split; reflexivity.
  - unfold jshort_min, jshort_max. lia.
  - unfold jshort_min, jshort_max. lia.
  - discriminate.
Defined.

Lemma resolution_at_most_once_witness :
  load_static newShortID {[ newShortID := 7 ]} <> NULL
  /\ List.filter is_lookup
       (requests (run (java_lang_Short_new_each 100 [(1, 0); (2, 5)] {[ newShortID := 7 ]})
                      Toy.booted)) = []
  /\ forallb (uses_cached (load_static newShortID {[ newShortID := 7 ]}))
       (requests (run (java_lang_Short_new_each 100 [(1, 0); (2, 5)] {[ newShortID := 7 ]})
                      Toy.booted)) = true
  /\ load_static newShortID
       (statics_after (run (java_lang_Short_new_each 100 [(1, 0); (2, 5)] {[ newShortID := 7 ]})
                           Toy.booted))
     = load_static newShortID {[ newShortID := 7 ]}.
Proof.
  assert (Hfilled : load_static newShortID {[ newShortID := 7 ]} <> NULL)
    by (vm_compute; discriminate).
  split; [exact Hfilled |].
  exact (proj1 (resolution_at_most_once 100 [(1, 0); (2, 5)] {[ newShortID := 7 ]} Toy.booted)
               Hfilled).
Defined.

Lemma cache_set_only_by_successful_resolution_witness :
  load_static newShortID initial_statics = NULL
  /\ (jni (GetMethodID 1 100 "<init>" "(S)V") Toy.misconfigured).1 = NULL
  /\ load_static newShortID
       (statics_after (run (java_lang_Short_new 100 1 5 initial_statics) Toy.misconfigured))
     = NULL
  /\ forall (env' s' : Z) (j' : Toy.jvm),
       exists m tr,
         requests
           (run (java_lang_Short_new 100 env' s'
                   (statics_after
                      (run (java_lang_Short_new 100 1 5 initial_statics) Toy.misconfigured)))
                j')
         = (GetMethodID env' 100 "<init>" "(S)V", m) :: tr.
Proof.
  assert (Hc : load_static newShortID initial_statics = NULL) by reflexivity.
  assert (Hf : (jni (GetMethodID 1 100 "<init>" "(S)V") Toy.misconfigured).1 = NULL)
    by reflexivity.
  split; [exact Hc |]. split; [exact Hf |].
  exact (proj2 (cache_set_only_by_successful_resolution 100 1 5 initial_statics
                  Toy.misconfigured) Hc Hf).
Defined.

Lemma only_newShortID_written_witness :
  "SHORT_TYPE" <> newShortID
  /\ statics_after (run (java_lang_Short_new 100 1 5 (<["SHORT_TYPE" := 100]> initial_statics))
                        Toy.booted) !! "SHORT_TYPE"
     = (<["SHORT_TYPE" := 100]> initial_statics : gmap string Z) !! "SHORT_TYPE".
Proof.
  assert (Hx : "SHORT_TYPE" <> newShortID) by discriminate.
  split; [exact Hx |].
  exact (proj1 (only_newShortID_written 100 1 5 (<["SHORT_TYPE" := 100]> initial_statics)
                  Toy.booted) "SHORT_TYPE" Hx).
Defined.

Lemma construction_result_returned_unchecked_witness :
  jni (GetMethodID 1 100 "<init>" "(S)V") Toy.exhausted = (7, Toy.exhausted)
  /\ 7 <> NULL
  /\ returned (run (java_lang_Short_new 100 1 5 initial_statics) Toy.exhausted)
     = (jni (NewObject 1 100 7 [5]) Toy.exhausted).1
  /\ (jni (NewObject 1 100 7 [5]) Toy.exhausted).1 = NULL.
Proof.
  assert (Hres : (if bool_decide (load_static newShortID initial_statics = NULL)
                  then jni (GetMethodID 1 100 "<init>" "(S)V") Toy.exhausted
                  else (load_static newShortID initial_statics, Toy.exhausted))
                 = (7, Toy.exhausted)) by reflexivity.
  assert (Hm : 7 <> NULL) by discriminate.
  split; [reflexivity |]. split; [exact Hm |].
  split; [| reflexivity].
  exact (proj1 (proj1 construction_result_returned_unchecked Toy.jvm Toy.runtime
                  100 1 5 initial_statics Toy.exhausted Toy.exhausted 7 Hres Hm)).
Defined.

(** ** The scenarios of the test plan, run on the small machine *)

(** Values 0, -1 and 32767 in turn from a fresh process: three references,
    one resolution. *)
Example scenario_configured :
  run (java_lang_Short_new_each 100 [(1, 0); (1, -1); (1, 32767)] initial_statics) Toy.booted
  = (([1; 2; 3], {[ newShortID := 7 ]}),
     {| Toy.classes := [("java/lang/Short", 100)];
        Toy.methods := [(100, "<init>", "(S)V", 7)];
        Toy.heap := [0; -1; 32767]; Toy.capacity := None; Toy.pending := None |},
     [(GetMethodID 1 100 "<init>" "(S)V", 7);
      (NewObject 1 100 7 [0], 1); (NewObject 1 100 7 [-1], 2);
      (NewObject 1 100 7 [32767], 3)]).
Proof. vm_compute. reflexivity. Qed.

(** The boxed type is missing: [NULL], an empty heap, and the exception the
    machine raised still pending. *)
Example scenario_misconfigured :
  run (java_lang_Short_new 100 1 5 initial_statics) Toy.misconfigured
  = ((NULL, {[ newShortID := 0 ]}),
     Toy.throw "java/lang/NoSuchMethodError" Toy.misconfigured,
     [(GetMethodID 1 100 "<init>" "(S)V", NULL)]).
Proof. vm_compute. reflexivity. Qed.


(** * Further properties of the routine *)

Section Further_properties.

Context {J : Type} `{!Runtime J}.
Variable SHORT_TYPE : jclass.

Local Abbreviation resolve env := (GetMethodID env SHORT_TYPE "<init>" "(S)V").
Local Abbreviation construct env m s := (NewObject env SHORT_TYPE m [s]).

(** Boxing a sequence of values on a correctly configured machine, with the
    references already handed out kept alive. *)
Lemma each_on_configured_keeps (ok : J -> Prop) (ctor : jmethodID)
    (calls : list (Z * Z)) (g : gmap string Z) (j : J) :
  Forall (fun c => well_configured SHORT_TYPE c.1 ok ctor
                   /\ jshort_min <= c.2 <= jshort_max) calls ->
  cache_ok ctor g -> ok j ->
  let out := run (java_lang_Short_new_each SHORT_TYPE calls g) j in
  Forall2 (fun o c => o <> NULL /\ shortValue (jvm_after out) o = Some c.2)
          (returned out) calls
  /\ ok (jvm_after out)
  /\ cache_ok ctor (statics_after out)
  /\ (forall r w, shortValue j r = Some w -> shortValue (jvm_after out) r = Some w).
Proof.
  intros Hcalls. cbv zeta. revert g j.
  induction Hcalls as [| [env v] calls [Hwc Hv] Hcalls IH]; intros g j Hcache Hok.
  - cbn. repeat split; auto.
  - rewrite run_each_cons. cbv zeta.
    destruct (call_on_configured SHORT_TYPE env ok ctor v g j Hwc Hcache Hok Hv)
      as (Hnn & Hval & Hok1 & Hcache1 & Hkeep1).
    destruct (IH _ _ Hcache1 Hok1) as (Hall & Hok2 & Hcache2 & Hkeep2).
    unfold returned at 1, jvm_after at 1 2 3, statics_after at 1.
    cbn [fst snd]. repeat split; auto.
    constructor; [| exact Hall]. split; [exact Hnn |].
    apply Hkeep2. exact Hval.
Qed.

(** X1. A sequence of calls on a correctly configured machine, each with a
    representable value: the routine returns one reference per call, none
    of them [NULL], and once the last call has returned every reference
    unboxes to the value of its own call. *)
Theorem each_call_boxes_its_value (ok : J -> Prop) (ctor : jmethodID)
    (calls : list (Z * Z)) (g : gmap string Z) (j : J) :
  Forall (fun c => well_configured SHORT_TYPE c.1 ok ctor
                   /\ jshort_min <= c.2 <= jshort_max) calls ->
  cache_ok ctor g -> ok j ->
  let out := run (java_lang_Short_new_each SHORT_TYPE calls g) j in
  Forall2 (fun o c => o <> NULL /\ shortValue (jvm_after out) o = Some c.2)
          (returned out) calls.
Proof.
  intros Hcalls Hcache Hok.
  exact (proj1 (each_on_configured_keeps ok ctor calls g j Hcalls Hcache Hok)).
Qed.

(** X2. With an identifier in the cache, a sequence of calls sends exactly
    one request per call, in order: the construction of the value of that
    call with the cached identifier, through the handle of that call.  The
    references returned are the answers to these requests, and the store of
    statics is not written at all. *)
Theorem warm_calls_construct_in_order (calls : list (Z * Z)) (g : gmap string Z) (j : J) :
  load_static newShortID g <> NULL ->
  let out := run (java_lang_Short_new_each SHORT_TYPE calls g) j in
  (requests out).*1 = (fun c => construct c.1 (load_static newShortID g) c.2) <$> calls
  /\ (requests out).*2 = returned out
  /\ statics_after out = g.
Proof.
  intros Hfilled. cbv zeta. revert j.
  induction calls as [| [env v] calls IH]; intros j.
  - repeat split.
  - rewrite run_each_cons. cbv zeta.
    rewrite (run_java_lang_Short_new SHORT_TYPE env v g j).
    rewrite (bool_decide_eq_false_2 _ Hfilled). cbv zeta.
    unfold returned at 2 3, statics_after at 1 2, jvm_after, requests at 1 3 5.
    cbn [fst snd app fmap list_fmap].
    destruct (IH (jni (construct env (load_static newShortID g) v) j).2) as (Hq & Hr & Hg).
    unfold requests, returned, statics_after in *. cbn [fst snd] in *.
    cbn [app fmap list_fmap fst snd]. rewrite Hq, Hr, Hg. repeat split.
Qed.

(** X3. The cache is transparent.  On a machine that resolves the
    constructor to [m] without changing state, a call that finds the cache
    empty sends the lookup and then does exactly what a call does that
    finds [m] in the cache: same requests after the lookup, same reference
    returned, same state of the machine, same store of statics. *)
Theorem caching_is_transparent (env : JNIEnv) (s : jshort) (g : gmap string Z)
    (j : J) (m : jmethodID) :
  load_static newShortID g = NULL ->
  jni (resolve env) j = (m, j) ->
  m <> NULL ->
  let cold := run (java_lang_Short_new SHORT_TYPE env s g) j in
  let warm := run (java_lang_Short_new SHORT_TYPE env s (store_static newShortID m g)) j in
  requests cold = (resolve env, m) :: requests warm
  /\ returned cold = returned warm
  /\ jvm_after cold = jvm_after warm
  /\ statics_after cold = statics_after warm.
Proof.
  intros Hempty Hres Hm. cbv zeta.
  rewrite !run_java_lang_Short_new. rewrite load_store_eq.
  rewrite (bool_decide_eq_true_2 _ Hempty), (bool_decide_eq_false_2 _ Hm). cbv zeta.
  rewrite Hres. cbn [fst snd]. rewrite (bool_decide_eq_false_2 _ Hm).
  repeat split.
Qed.

(** X4. A failed resolution is not remembered.  On a machine on which the
    constructor does not resolve, a sequence of calls that starts with an
    empty cache sends one lookup per call and nothing else, returns [NULL]
    from every call, and ends with the cache empty. *)
Theorem failed_resolution_is_retried (ok : J -> Prop) (calls : list (Z * Z))
    (g : gmap string Z) (j : J) :
  (forall env j1, ok j1 ->
     (jni (resolve env) j1).1 = NULL /\ ok (jni (resolve env) j1).2) ->
  load_static newShortID g = NULL -> ok j ->
  let out := run (java_lang_Short_new_each SHORT_TYPE calls g) j in
  requests out = (fun c => (resolve c.1, NULL)) <$> calls
  /\ returned out = (fun _ => NULL) <$> calls
  /\ load_static newShortID (statics_after out) = NULL.
Proof.
  intros Hfail. cbv zeta. revert g j.
  induction calls as [| [env v] calls IH]; intros g j Hempty Hok.
  - repeat split. exact Hempty.
  - rewrite run_each_cons. cbv zeta.
    rewrite (run_java_lang_Short_new SHORT_TYPE env v g j).
    destruct (Hfail env j Hok) as [Hnull Hok1].
    rewrite (bool_decide_eq_true_2 _ Hempty). cbv zeta.
    rewrite (bool_decide_eq_true_2 _ Hnull). rewrite Hnull.
    destruct (IH (store_static newShortID NULL g) (jni (resolve env) j).2) as (Hq & Hr & Hc);
      [apply load_store_eq | exact Hok1 |].
    unfold returned, statics_after, jvm_after, requests in *.
    cbn [fst snd app fmap list_fmap] in *.
    rewrite Hq, Hr. repeat split. exact Hc.
Qed.

(** X5. Whatever the cache holds and whatever the machine answers, a call
    asks the machine for two things only, both through the handle it was
    given: the constructor [(S)V] of [SHORT_TYPE], and the construction of
    [SHORT_TYPE] from the unchanged value [s] with an identifier that is
    not [NULL].  It never looks up a class, never reads or clears the
    exception indicator, and never constructs with a null identifier. *)
Theorem only_expected_requests (env : JNIEnv) (s : jshort) (g : gmap string Z) (j : J) :
  forallb (expected_request SHORT_TYPE env s)
          (requests (run (java_lang_Short_new SHORT_TYPE env s g) j)).*1 = true.
Proof.
  rewrite run_java_lang_Short_new. cbv zeta.
  repeat case_bool_decide; unfold requests;
    cbn [fst snd fmap list_fmap forallb expected_request];
    rewrite ?(bool_decide_eq_true_2 (env = env)), ?(bool_decide_eq_true_2 (SHORT_TYPE = SHORT_TYPE)),
      ?(bool_decide_eq_true_2 ("<init>" = "<init>")), ?(bool_decide_eq_true_2 ("(S)V" = "(S)V")),
      ?(bool_decide_eq_true_2 ([s] = [s])) by reflexivity;
    rewrite ?(bool_decide_eq_false_2 (_ = NULL)) by assumption;
    reflexivity.
Qed.

End Further_properties.

(** ** The further properties at concrete inputs *)

Lemma no_method_no_resolution (clazz env : Z) (j : Toy.jvm) :
  Toy.methods j = [] ->
  (jni (GetMethodID env clazz "<init>" "(S)V") j).1 = NULL
  /\ Toy.methods (jni (GetMethodID env clazz "<init>" "(S)V") j).2 = [].
Proof.
  intros Hnone. cbn. rewrite Hnone. cbn.
  rewrite (bool_decide_eq_true_2 _ eq_refl). cbn. split; [reflexivity | exact Hnone].
Qed.

Lemma each_call_boxes_its_value_witness :
  let out := run (java_lang_Short_new_each 100 [(1, 0); (2, -1); (1, 32767)] initial_statics)
                 Toy.booted in
  Forall2 (fun o c => o <> NULL /\ shortValue (jvm_after out) o = Some c.2)
          (returned out) [(1, 0); (2, -1); (1, 32767)].
Proof.
  apply (each_call_boxes_its_value 100 (Toy.configured 100 7) 7
           [(1, 0); (2, -1); (1, 32767)] initial_statics Toy.booted).
  - repeat (constructor;
            [split; [apply configured_well_configured; discriminate
                    | unfold jshort_min, jshort_max; cbn; lia] |]).
    constructor.
  - left. reflexivity.
  - split; reflexivity.
Defined.

Lemma warm_calls_construct_in_order_witness :
  let out := run (java_lang_Short_new_each 100 [(1, 0); (2, 5)] {[ newShortID := 7 ]})
                 Toy.booted in
  (requests out).*1 = [NewObject 1 100 7 [0]; NewObject 2 100 7 [5]]
  /\ (requests out).*2 = returned out
  /\ statics_after out = {[ newShortID := 7 ]}.
Proof.
  assert (Hfilled : load_static newShortID {[ newShortID := 7 ]} <> NULL)
    by (vm_compute; discriminate).
  exact (warm_calls_construct_in_order 100 [(1, 0); (2, 5)] {[ newShortID := 7 ]} Toy.booted
           Hfilled).
Defined.

Lemma caching_is_transparent_witness :
  let cold := run (java_lang_Short_new 100 1 5 initial_statics) Toy.booted in
  let warm := run (java_lang_Short_new 100 1 5 (store_static newShortID 7 initial_statics))
                  Toy.booted in
  requests cold = (GetMethodID 1 100 "<init>" "(S)V", 7) :: requests warm
  /\ returned cold = returned warm
  /\ jvm_after cold = jvm_after warm
  /\ statics_after cold = statics_after warm.
Proof.
  apply (caching_is_transparent 100 1 5 initial_statics Toy.booted 7).
  - reflexivity.
  - reflexivity.
  - discriminate.
Defined.

Lemma failed_resolution_is_retried_witness :
  let out := run (java_lang_Short_new_each 100 [(1, 0); (2, 5)] initial_statics)
                 Toy.misconfigured in
  requests out = [(GetMethodID 1 100 "<init>" "(S)V", NULL);
                  (GetMethodID 2 100 "<init>" "(S)V", NULL)]
  /\ returned out = [NULL; NULL]
  /\ load_static newShortID (statics_after out) = NULL.
Proof.
  apply (failed_resolution_is_retried 100 (fun j => Toy.methods j = [])
           [(1, 0); (2, 5)] initial_statics Toy.misconfigured).
  - intros env j1. apply no_method_no_resolution.
  - reflexivity.
  - reflexivity.
Defined.
